(** * Geospatial_utilities: a shallow embedding of geospatial_utilities.py

    Coordinates, resolutions and the values stored in rasters are modelled
    as exact rationals [Q]; pixel values additionally carry NaN.  The Lee
    filter's arithmetic, done by numpy and scipy on float64 buffers, is
    modelled in IEEE 754 binary64 ([spec_float]), with numpy's summation
    order and scipy's conversion of the result to the raster's dtype.
    Python's exceptions are an explicit error type.  The raster source
    (rasterio), the projection (pyproj) and the resampling transform
    (calculate_default_transform) are external capabilities: they are
    Section variables, so every theorem holds for every implementation of
    them. *)

From Stdlib Require Import QArith Qround ZArith List String Bool Lia.
From Stdlib Require Import Floats.SpecFloat.
Import ListNotations.
Open Scope Q_scope.

(** ** Python runtime pieces *)

(** The exceptions that matter to the module. *)
Inductive exn : Type :=
| IndexError
| ValueError
| UnboundLocalError
| ZeroDivisionError
| TransformNotInvertibleError
| OtherError (name : string).

Inductive result (A : Type) : Type :=
| Ok (a : A)
| Err (e : exn).
Arguments Ok {A} a.
Arguments Err {A} e.

Definition bind {A B} (m : result A) (k : A -> result B) : result B :=
  match m with
  | Ok a => k a
  | Err e => Err e
  end.

Notation "x <- m ;; k" := (bind m (fun x => k))
  (at level 61, m at next level, right associativity).

(** [int(x)] on a float: truncation toward zero. *)
Definition py_int (q : Q) : Z := Z.quot (Qnum q) (Zpos (Qden q)).

(** Python's [/] on floats: [ZeroDivisionError] on a zero divisor. *)
Definition py_div (x y : Q) : result Q :=
  if Qeq_bool y 0 then Err ZeroDivisionError else Ok (x / y).

(** ** get_utm_zone (lines 78-91) *)
Definition get_utm_zone (longitude : Q) : Z :=
  let zone_number := (py_int ((longitude + 180) / 6) + 1)%Z in
  if (zone_number >? 60)%Z then 1%Z else zone_number.

(** ** get_epsg_code (lines 93-108)
    Neither branch taken: [epsg_code] is unbound at [return epsg_code]. *)
Definition get_epsg_code (utm_zone : Z) (hemisphere : string) : result Z :=
  if String.eqb hemisphere "N" then Ok (32600 + utm_zone)%Z
  else if String.eqb hemisphere "S" then Ok (32700 + utm_zone)%Z
  else Err UnboundLocalError.

(** [hemisphere = 'N' if coordinate[0] >= 0 else 'S'] (line 32). *)
Definition hemisphere_of (latitude : Q) : string :=
  if Qle_bool 0 latitude then "N" else "S".

(** ** Helper lemmas on [int()] *)

Lemma py_int_nonneg_floor (q : Q) : 0 <= q -> py_int q = Qfloor q.
Proof.
  destruct q as [n d]. unfold py_int, Qfloor, Qle. simpl. intros H.
  apply Z.quot_div_nonneg; lia.
Qed.

Lemma py_int_nonpos (q : Q) : q <= 0 -> py_int q = (- Qfloor (- q))%Z.
Proof.
  destruct q as [n d]. unfold py_int, Qfloor, Qle. simpl. intros H.
  rewrite <- (Z.opp_involutive n) at 1.
  rewrite Z.quot_opp_l by lia. f_equal.
  apply Z.quot_div_nonneg; lia.
Qed.

(** ** numpy pieces *)

(** A raster value as [dataset.read] returns it: a number of the band's
    dtype (every integer and every float is a rational), or NaN. *)
Inductive pix : Type :=
| Num (q : Q)
| NaN.

Definition np_isnan (p : pix) : bool :=
  match p with NaN => true | Num _ => false end.

(** Indexing one axis of an ndarray: negative indices count from the end;
    anything else out of range raises [IndexError]. *)
Definition np_index {A} (xs : list A) (i : Z) : result A :=
  let j := if (i <? 0)%Z then (Z.of_nat (List.length xs) + i)%Z else i in
  if (j <? 0)%Z then Err IndexError
  else match nth_error xs (Z.to_nat j) with
       | Some a => Ok a
       | None => Err IndexError
       end.

(** [data[r, c]] on a 2-D array stored row by row. *)
Definition np_get2 {A} (data : list (list A)) (r c : Z) : result A :=
  row <- np_index data r ;; np_index row c.

(** [w.reshape((r, c))] of a flat buffer, row-major. *)
Definition reshape {A} (w : list A) (r c : nat) : list (list A) :=
  map (fun i => firstn c (skipn (i * c) w)) (seq 0 r).


(** ** float64 arithmetic

    numpy and scipy compute on IEEE 754 binary64 numbers: the Standard
    Library's [spec_float] at 53 bits of precision and exponent bound 1024,
    rounding to nearest, ties to even. *)
Definition f64 : Type := spec_float.

Definition fadd : f64 -> f64 -> f64 := SFadd 53 1024.
Definition fsub : f64 -> f64 -> f64 := SFsub 53 1024.
Definition fmul : f64 -> f64 -> f64 := SFmul 53 1024.
Definition fdiv : f64 -> f64 -> f64 := SFdiv 53 1024.
(** [==] on floats: NaN equals nothing, [-0.0 == 0.0]. *)
Definition f_eqb : f64 -> f64 -> bool := SFeqb.

(** The double nearest to a rational (ties to even): the exact quotient of
    numerator and denominator, rounded once.  This is C's conversion of a
    stored integer or float to [double]; it is exact for every value of a
    float32 or float64 band and for integers below 2^53. *)
Definition q_to_f64 (q : Q) : f64 :=
  match Qnum q with
  | Z0 => S754_zero false
  | Zpos p => fdiv (S754_finite false p 0) (S754_finite false (Qden q) 0)
  | Zneg p => fdiv (S754_finite true p 0) (S754_finite false (Qden q) 0)
  end.

Definition pix_to_f64 (p : pix) : f64 :=
  match p with Num q => q_to_f64 q | NaN => S754_nan end.

Definition f_zero : f64 := S754_zero false.
Definition f_one : f64 := q_to_f64 1.

(** [DOUBLE_pairwise_sum] (numpy, loops_utils.h.src): fewer than 8 terms are
    added in order to [0.]; up to [PW_BLOCKSIZE = 128] terms go to eight
    accumulators [r[0..7]], combined as
    [((r0 + r1) + (r2 + r3)) + ((r4 + r5) + (r6 + r7))], after which the
    [n % 8] remaining terms are added in order; longer arrays are split at
    [n2 = n / 2 - (n / 2) % 8] and the two halves summed recursively. *)
Record acc8 : Type := mk_acc8
  { r0 : f64; r1 : f64; r2 : f64; r3 : f64; r4 : f64; r5 : f64; r6 : f64; r7 : f64 }.

(** The unrolled loop [for (i = 8; i < n - (n % 8); i += 8) r[j] += a[i + j]]:
    it consumes blocks of eight and leaves the [n % 8] rest. *)
Fixpoint pw_unrolled (r : acc8) (xs : list f64) : acc8 * list f64 :=
  match xs with
  | a0 :: a1 :: a2 :: a3 :: a4 :: a5 :: a6 :: a7 :: tl =>
      pw_unrolled (mk_acc8 (fadd (r0 r) a0) (fadd (r1 r) a1) (fadd (r2 r) a2)
                           (fadd (r3 r) a3) (fadd (r4 r) a4) (fadd (r5 r) a5)
                           (fadd (r6 r) a6) (fadd (r7 r) a7)) tl
  | _ => (r, xs)
  end.

Definition acc8_sum (r : acc8) : f64 :=
  fadd (fadd (fadd (r0 r) (r1 r)) (fadd (r2 r) (r3 r)))
       (fadd (fadd (r4 r) (r5 r)) (fadd (r6 r) (r7 r))).

(** [fuel] bounds the depth of the recursive split; [pairwise_sum] gives it
    the length of the array, which every split strictly decreases, so the
    [O] case is never reached from there. *)
Fixpoint pairwise_sum_fuel (fuel : nat) (xs : list f64) : f64 :=
  let n := List.length xs in
  if (n <? 8)%nat then fold_left fadd xs f_zero
  else if (n <=? 128)%nat then
    match xs with
    | a0 :: a1 :: a2 :: a3 :: a4 :: a5 :: a6 :: a7 :: tl =>
        let '(r, rest) := pw_unrolled (mk_acc8 a0 a1 a2 a3 a4 a5 a6 a7) tl in
        fold_left fadd rest (acc8_sum r)
    | _ => f_zero
    end
  else match fuel with
       | O => f_zero
       | S fuel' =>
           let n2 := (n / 2 - (n / 2) mod 8)%nat in
           fadd (pairwise_sum_fuel fuel' (firstn n2 xs))
                (pairwise_sum_fuel fuel' (skipn n2 xs))
       end.

Definition pairwise_sum (xs : list f64) : f64 := pairwise_sum_fuel (List.length xs) xs.

(** [np.add.reduce] of a float64 vector: the identity [0.0] plus the
    pairwise sum of the whole vector. *)
Definition np_sum (w : list f64) : f64 := fadd f_zero (pairwise_sum w).

(** [np.mean] ([_mean] in numpy/_core/_methods.py): the sum divided by the
    element count. *)
Definition np_mean (w : list f64) : f64 :=
  fdiv (np_sum w) (q_to_f64 (inject_Z (Z.of_nat (List.length w)))).

(** [np.var] ([_var], ddof 0): [x = arr - arrmean], [x = x * x], then the
    sum of [x] divided by the count. *)
Definition np_var (w : list f64) : f64 :=
  let arrmean := np_mean w in
  np_mean (map (fun x => fmul (fsub x arrmean) (fsub x arrmean)) w).

(** ** The band's dtype ([dataset.dtypes[0]]) and the storing of a double
    into an array of that dtype *)
Inductive dtype : Type :=
| int_dtype (signed : bool) (bits : Z)   (* int8, uint8, ..., int64, uint64 *)
| float32
| float64
| complex_dtype.                          (* complex64, complex128, complex_int16 *)

(** An element of an output array: a float (binary64 for float64, binary32
    for float32) or an integer. *)
Inductive npval : Type :=
| FVal (x : f64)
| IVal (z : Z).

(** Truncation toward zero of a finite double; None for NaN and infinities. *)
Definition f_trunc (x : f64) : option Z :=
  match x with
  | S754_zero _ => Some 0%Z
  | S754_finite s m e => Some (cond_Zopp s (Z.shiftl (Zpos m) e))
  | _ => None
  end.

Definition int_dtype_holds (signed : bool) (bits z : Z) : bool :=
  if signed then (- 2 ^ (bits - 1) <=? z)%Z && (z <? 2 ^ (bits - 1))%Z
  else (0 <=? z)%Z && (z <? 2 ^ bits)%Z.

(** [*(T * )po = (T)tmp] in scipy's [NI_GenericFilter]: C's conversion of
    the double [tmp] to the element type [T].  float64 keeps it, float32
    rounds it to binary32 (24 bits, exponent bound 128), an integer type
    truncates toward zero.  An integer conversion whose truncated value does
    not fit [T] (or of NaN or an infinity) is undefined in C; the value it
    stores is the platform's, [out_of_range].  Complex input never gets
    here: [generic_filter] refuses it first. *)
Definition np_cast (out_of_range : dtype -> f64 -> Z) (dt : dtype) (x : f64) : npval :=
  match dt with
  | float64 => FVal x
  | float32 => FVal (SFdiv 24 128 x (S754_finite false 1 0))
  | int_dtype signed bits =>
      match f_trunc x with
      | Some z => if int_dtype_holds signed bits z then IVal z else IVal (out_of_range dt x)
      | None => IVal (out_of_range dt x)
      end
  | complex_dtype => FVal x
  end.

(** ** scipy.ndimage.generic_filter with [mode='constant'] ([cval=0.0])
    and origin 0: the footprint of side [size] at pixel (i, j) covers rows
    [i - size//2 .. i - size//2 + size - 1] (likewise for columns), cells
    outside the array read as 0.0, and the callback receives the footprint
    as a float64 buffer, flattened row-major.  Its result, a double, is
    stored in an output array [np.zeros(input.shape, input.dtype)]. *)
Definition cell (g : list (list pix)) (i j : Z) : pix :=
  if (i <? 0)%Z || (j <? 0)%Z then Num 0
  else nth (Z.to_nat j) (nth (Z.to_nat i) g []) (Num 0).

Definition footprint (g : list (list pix)) (size : nat) (i j : Z) : list pix :=
  let o := Z.of_nat (size / 2) in
  flat_map (fun a =>
              map (fun b => cell g (i - o + Z.of_nat a) (j - o + Z.of_nat b))
                  (seq 0 size))
           (seq 0 size).

Definition generic_filter_output (out_of_range : dtype -> f64 -> Z) (dt : dtype)
  (g : list (list pix)) (f : list f64 -> f64) (size : nat) : list (list npval) :=
  map (fun i =>
         map (fun j => np_cast out_of_range dt
                         (f (map pix_to_f64 (footprint g size (Z.of_nat i) (Z.of_nat j)))))
             (seq 0 (List.length (nth i g []))))
      (seq 0 (List.length g)).

(** [generic_filter] raises TypeError on complex input
    ([np.iscomplexobj(input)]) and RuntimeError when [size] is 0 (the
    footprint then has no axis of positive length: "filter footprint array
    has incorrect shape"). *)
Definition generic_filter (out_of_range : dtype -> f64 -> Z) (dt : dtype)
  (g : list (list pix)) (f : list f64 -> f64) (size : nat) : result (list (list npval)) :=
  match dt with
  | complex_dtype => Err (OtherError "TypeError")
  | _ => if (size =? 0)%nat then Err (OtherError "RuntimeError")
         else Ok (generic_filter_output out_of_range dt g f size)
  end.

(** [lee_filter_single_pixel] (lines 171-177), on the float64 buffer [w];
    [local_variance + 1] and [== 0] compare and add the floats 1.0 and 0.0. *)
Definition lee_filter_single_pixel (window_size : nat) (w : list f64) : f64 :=
  let local_mean := np_mean w in
  let local_variance := np_var w in
  let w2 := reshape w window_size window_size in
  if f_eqb local_variance f_zero then local_mean
  else fdiv (fmul (nth (window_size / 2) (nth (window_size / 2) w2 []) S754_nan)
                  local_variance)
            (fadd local_variance f_one).

(** The per-pixel rule as the specification words it, in exact arithmetic:
    the mean of the neighbourhood if its variance is 0, and otherwise
    center * variance / (variance + 1). *)
Definition lee_value_spec (nbhd : list Q) (center : Q) : Q :=
  let n := inject_Z (Z.of_nat (List.length nbhd)) in
  let local_mean := fold_right Qplus 0 nbhd / n in
  let local_variance :=
    fold_right Qplus 0 (map (fun x => (x - local_mean) * (x - local_mean)) nbhd) / n in
  if Qeq_bool local_variance 0 then local_mean
  else center * local_variance / (local_variance + 1).

(** ** affine: [Affine(a, b, c, d, e, f)], [~A] and [A * (x, y)] *)
Record affine : Type := mk_affine
  { sa : Q; sb : Q; sc : Q; sd : Q; se : Q; sf : Q }.

Definition affine_mul (A : affine) (p : Q * Q) : Q * Q :=
  let '(vx, vy) := p in
  (vx * sa A + vy * sb A + sc A, vx * sd A + vy * se A + sf A).

Definition determinant (A : affine) : Q := sa A * se A - sb A * sd A.

Definition affine_invert (A : affine) : result affine :=
  if Qeq_bool (determinant A) 0 then Err TransformNotInvertibleError
  else
    let idet := 1 / determinant A in
    let ra := se A * idet in
    let rb := - sb A * idet in
    let rd := - sd A * idet in
    let re := sa A * idet in
    Ok (mk_affine ra rb (- sc A * ra - sf A * rb) rd re (- sc A * rd - sf A * re)).

(** ** Raster bounds, [BoundingBox(left, bottom, right, top)] *)
Record bounds : Type := mk_bounds
  { left : Q; bottom : Q; right : Q; top : Q }.

(** [bounds.left <= coordinate[1] <= bounds.right and
     bounds.bottom <= coordinate[0] <= bounds.top]; a coordinate is
    (lat, lon). *)
Definition in_bounds (b : bounds) (coordinate : Q * Q) : bool :=
  Qle_bool (left b) (snd coordinate) && Qle_bool (snd coordinate) (right b) &&
  Qle_bool (bottom b) (fst coordinate) && Qle_bool (fst coordinate) (top b).

(** ** Lines 41-47: the requested target shape. *)
Definition dst_shape (width height : nat) (old_resolution_meters new_resolution_meters : Q)
  : result (Z * Z) :=
  scale_factor_x <- py_div new_resolution_meters old_resolution_meters ;;
  scale_factor_y <- py_div new_resolution_meters old_resolution_meters ;;
  Ok (py_int (inject_Z (Z.of_nat width) * scale_factor_x),
      py_int (inject_Z (Z.of_nat height) * scale_factor_y)).

(** ** Lines 64-73: the guarded read [data[row, col]]; NaN, IndexError and
    ValueError all become None. *)
Definition read_cell (data : list (list pix)) (row col : Z) : result (option Q) :=
  match np_get2 data row col with
  | Ok extracted_value => if np_isnan extracted_value then Ok None
                          else match extracted_value with
                               | Num v => Ok (Some v)
                               | NaN => Ok None
                               end
  | Err IndexError | Err ValueError => Ok None
  | Err e => Err e
  end.

(** ** Lines 62-75: pixel lookup in the resampled grid. *)
Definition extract_pixel (data : list (list pix)) (dst_transform : affine)
  (easting northing : Q) : result (option Q) :=
  inv <- affine_invert dst_transform ;;
  let '(pixel_col, pixel_row) := affine_mul inv (easting, northing) in
  read_cell data (py_int pixel_row) (py_int pixel_col).

Section Capabilities.

(** The opened dataset and the coordinate reference systems. *)
Variables raster crs : Type.
Variable ds_crs : raster -> crs.
Variables ds_width ds_height : raster -> nat.
Variable ds_bounds : raster -> bounds.
(** [dataset.index(x, y)] gives [(row, col)]. *)
Variable ds_index : raster -> Q -> Q -> Z * Z.
(** [dataset.read(1, window=((r0, r1), (c0, c1)))]. *)
Variable ds_read : raster -> Z * Z -> Z * Z -> result (list (list pix)).
(** [dataset.dtypes[0]], the dtype of the arrays [dataset.read(1, ...)] returns. *)
Variable ds_dtype : raster -> dtype.
(** [dataset.read(1, window=..., out_shape=(1, h, w), resampling=bilinear)]. *)
Variable ds_read_resampled :
  raster -> Z * Z -> Z * Z -> Z * Z -> result (list (list pix)).
(** [pyproj.CRS.from_epsg] and [Transformer.from_crs(.., always_xy=True).transform]. *)
Variable crs_from_epsg : Z -> crs.
Variable transform_xy : crs -> crs -> Q -> Q -> Q * Q.
(** [rasterio.warp.calculate_default_transform(src, dst, width, height,
    *bounds, dst_width=.., dst_height=..)]. *)
Variable calculate_default_transform :
  crs -> crs -> nat -> nat -> bounds -> Z -> Z -> affine * Z * Z.
(** What the platform stores for a C conversion of a double to an integer
    type that is out of the type's range. *)
Variable out_of_range : dtype -> f64 -> Z.

(** [resample_and_extract_value] (lines 12-75); the dataset is the one
    [rasterio.open(tiff_file)] yields. *)
Definition resample_and_extract_value (dataset : raster) (coordinate : Q * Q)
  (old_resolution_meters new_resolution_meters : Q) : result (option Q) :=
  let src_crs := ds_crs dataset in
  let utm_zone := get_utm_zone (snd coordinate) in
  let hemisphere := hemisphere_of (fst coordinate) in
  epsg_code <- get_epsg_code utm_zone hemisphere ;;
  let dst_crs := crs_from_epsg epsg_code in
  let lon := snd coordinate in
  let lat := fst coordinate in
  let '(easting, northing) := transform_xy src_crs dst_crs lon lat in
  shape <- dst_shape (ds_width dataset) (ds_height dataset)
                     old_resolution_meters new_resolution_meters ;;
  let '(dst_width, dst_height) := shape in
  let '(dst_transform, dst_width, dst_height) :=
    calculate_default_transform src_crs dst_crs (ds_width dataset) (ds_height dataset)
                                (ds_bounds dataset) dst_width dst_height in
  data <- ds_read_resampled dataset (0, dst_height)%Z (0, dst_width)%Z
                            (dst_height, dst_width) ;;
  extract_pixel data dst_transform easting northing.

(** [extract_values_at_coordinates] (lines 110-139). *)
Definition extract_values_at_coordinates (dataset : raster) (coordinate : Q * Q)
  : result (list (option pix)) :=
  if in_bounds (ds_bounds dataset) coordinate then
    let '(row, col) := ds_index dataset (snd coordinate) (fst coordinate) in
    match (w <- ds_read dataset (row, row + 1)%Z (col, col + 1)%Z ;; np_get2 w 0 0) with
    | Ok value => Ok [Some value]
    | Err IndexError => Ok [None]
    | Err e => Err e
    end
  else Ok [None].

(** [lee_filter] (lines 141-183): the [try] covers the read and the filter;
    only IndexError is caught. *)
Definition lee_filter (window_size : nat) (dataset : raster) (coordinate : Q * Q)
  : result (option (list (list npval))) :=
  if in_bounds (ds_bounds dataset) coordinate then
    let '(row, col) := ds_index dataset (snd coordinate) (fst coordinate) in
    match (window <- ds_read dataset (row, row + Z.of_nat window_size)%Z
                             (col, col + Z.of_nat window_size)%Z ;;
           generic_filter out_of_range (ds_dtype dataset) window
                          (lee_filter_single_pixel window_size) window_size) with
    | Ok filtered_value => Ok (Some filtered_value)
    | Err IndexError => Ok None
    | Err e => Err e
    end
  else Ok None.

End Capabilities.

(** ** An in-memory raster: one concrete instance of the capabilities
    (band held as a grid, unit north-up pixels with origin (left, top), an
    identity projection).  It is used to run the functions on small inputs. *)
Module InMemory.

Record raster : Type := mk_raster { band : list (list pix); rbounds : bounds; rdtype : dtype }.
Definition crs : Type := Z.

Definition ds_crs (_ : raster) : crs := 4326%Z.
Definition ds_height (r : raster) : nat := List.length (band r).
Definition ds_width (r : raster) : nat := List.length (nth 0 (band r) []).
Definition ds_bounds (r : raster) : bounds := rbounds r.
Definition ds_index (r : raster) (x y : Q) : Z * Z :=
  (Qfloor (top (rbounds r) - y), Qfloor (x - left (rbounds r))).

(** Windowed read; a window leaving the grid is refused. *)
Definition ds_read (r : raster) (rows cols : Z * Z) : result (list (list pix)) :=
  let '(r0, r1) := rows in
  let '(c0, c1) := cols in
  if (0 <=? r0)%Z && (r0 <=? r1)%Z && (r1 <=? Z.of_nat (ds_height r))%Z &&
     (0 <=? c0)%Z && (c0 <=? c1)%Z && (c1 <=? Z.of_nat (ds_width r))%Z
  then Ok (map (fun row => firstn (Z.to_nat (c1 - c0)) (skipn (Z.to_nat c0) row))
               (firstn (Z.to_nat (r1 - r0)) (skipn (Z.to_nat r0) (band r))))
  else Err (OtherError "WindowError").

Definition ds_dtype (r : raster) : dtype := rdtype r.
(** This instance stores 0 for out-of-range integer conversions. *)
Definition out_of_range (_ : dtype) (_ : f64) : Z := 0%Z.

Definition ds_read_resampled (r : raster) (_ _ _ : Z * Z) : result (list (list pix)) :=
  Ok (band r).
Definition crs_from_epsg (code : Z) : crs := code.
Definition transform_xy (_ _ : crs) (x y : Q) : Q * Q := (x, y).
Definition calculate_default_transform (_ _ : crs) (width height : nat) (b : bounds)
  (_ _ : Z) : affine * Z * Z :=
  (mk_affine 1 0 (left b) 0 (-1) (top b), Z.of_nat width, Z.of_nat height).

Definition resample :=
  resample_and_extract_value raster crs ds_crs ds_width ds_height ds_bounds
    ds_read_resampled crs_from_epsg transform_xy calculate_default_transform.
Definition extract_values := extract_values_at_coordinates raster ds_bounds ds_index ds_read.
Definition lee := lee_filter raster ds_bounds ds_index ds_read ds_dtype out_of_range.

(** A 2 x 3 band over bounds (0, 0)-(3, 2). *)
Definition small : raster :=
  mk_raster [[Num 1; Num 2; Num 3]; [Num 4; Num 5; Num 6]] (mk_bounds 0 0 3 2) float64.

(** A 3 x 3 band over bounds (0, 0)-(3, 3). *)
Definition square : raster :=
  mk_raster [[Num 1; Num 1; Num 1]; [Num 1; Num 2; Num 1]; [Num 1; Num 1; Num 1]]
            (mk_bounds 0 0 3 3) float64.

(** A 2 x 2 uint8 band over bounds (0, 0)-(2, 2). *)
Definition ramp_u8 : raster :=
  mk_raster [[Num 1; Num 0]; [Num 0; Num 0]] (mk_bounds 0 0 2 2) (int_dtype false 8).

(** A 2 x 2 float64 band with a NaN, over bounds (0, 0)-(2, 2). *)
Definition holey : raster :=
  mk_raster [[Num 1; NaN]; [Num 3; Num 4]] (mk_bounds 0 0 2 2) float64.

(** A 1 x 1 complex64 band. *)
Definition cplx : raster :=
  mk_raster [[Num 1]] (mk_bounds 0 0 1 1) complex_dtype.

End InMemory.

(** * Properties *)

From Stdlib Require Import Lqa.

Lemma utm_quotient_range (L : Q) :
  -180 <= L -> 0 <= (L + 180) / 6 /\ (L < 180 -> (L + 180) / 6 < 60).
Proof.
  intros H. split.
  - apply Qle_shift_div_l; [reflexivity | lra].
  - intros H2. apply Qlt_shift_div_r; [reflexivity | lra].
Qed.

(** ** C3 *)

(** C3 (counterexample): below -180 the code truncates where floor would
    round down: at longitude -183 the code yields zone 1, while
    floor((-183 + 180) / 6) + 1 = 0 (not above 60, so no reset). *)
Lemma get_utm_zone_floor_counterexample :
  get_utm_zone (-183) = 1%Z /\
  (let z := (Qfloor ((-183 + 180) / 6) + 1)%Z in if (z >? 60)%Z then 1%Z else z) = 0%Z.
Proof. split; reflexivity. Qed.

(** C3 (amended): get_utm_zone computes int((L + 180) / 6) + 1, which is
    floor((L + 180) / 6) + 1 for every L >= -180, and resets it to 1 above
    60; for L in [-180, 180) the zone lies in [1, 60]; the zone of 179.9999
    is 60 and that of -180 is 1. *)
Theorem get_utm_zone_spec :
  (forall L : Q, get_utm_zone L =
     (let z := (py_int ((L + 180) / 6) + 1)%Z in if (z >? 60)%Z then 1%Z else z)) /\
  (forall L : Q, -180 <= L -> get_utm_zone L =
     (let z := (Qfloor ((L + 180) / 6) + 1)%Z in if (z >? 60)%Z then 1%Z else z)) /\
  (forall L : Q, -180 <= L < 180 -> (1 <= get_utm_zone L <= 60)%Z) /\
  get_utm_zone 179.9999 = 60%Z /\
  get_utm_zone (-180) = 1%Z.
Proof.
  split; [reflexivity|].
  split.
  { intros L H. unfold get_utm_zone.
    rewrite py_int_nonneg_floor by (apply utm_quotient_range; exact H).
    reflexivity. }
  split; [| split; reflexivity].
  intros L [H1 H2].
  destruct (utm_quotient_range L H1) as [Hlo Hhi]. specialize (Hhi H2).
  unfold get_utm_zone. rewrite py_int_nonneg_floor by exact Hlo.
  set (q := (L + 180) / 6) in *.
  assert (Hf0 : (0 <= Qfloor q)%Z).
  { change 0%Z with (Qfloor 0). apply Qfloor_resp_le. exact Hlo. }
  assert (Hf60 : (Qfloor q < 60)%Z).
  { rewrite Zlt_Qlt. eapply Qle_lt_trans; [apply Qfloor_le | exact Hhi]. }
  destruct (Qfloor q + 1 >? 60)%Z eqn:E.
  - apply Z.gtb_lt in E. lia.
  - lia.
Qed.

(** Witness for C3: the range statement at longitude 2. *)
Lemma get_utm_zone_spec_witness :
  (-180 <= 2 < 180) /\ (1 <= get_utm_zone 2 <= 60)%Z.
Proof.
  split.
  - split; vm_compute; congruence.
  - apply (proj1 (proj2 (proj2 get_utm_zone_spec)) 2). split; vm_compute; congruence.
Defined.

(** ** C4 *)

(** C4 (counterexample): with hemisphere "E" the code does raise, but the
    exception is UnboundLocalError ([epsg_code] is never assigned), not an
    UnsupportedHemisphereError, which the module never defines. *)
Lemma get_epsg_code_hemisphere_counterexample :
  get_epsg_code 31 "E" = Err UnboundLocalError /\
  get_epsg_code 31 "E" <> Err (OtherError "UnsupportedHemisphereError").
Proof. split; [reflexivity | discriminate]. Qed.

(** C4 (amended): for every hemisphere other than "N" and "S",
    get_epsg_code raises UnboundLocalError instead of returning a value. *)
Theorem get_epsg_code_other_hemisphere (utm_zone : Z) (hemisphere : string) :
  hemisphere <> "N"%string -> hemisphere <> "S"%string ->
  get_epsg_code utm_zone hemisphere = Err UnboundLocalError.
Proof.
  intros HN HS. unfold get_epsg_code.
  apply String.eqb_neq in HN, HS. rewrite HN, HS. reflexivity.
Qed.

Lemma get_epsg_code_other_hemisphere_witness :
  get_epsg_code 31 "E" = Err UnboundLocalError.
Proof. apply get_epsg_code_other_hemisphere; discriminate. Defined.

(** ** C9 *)

(** C9: get_epsg_code gives 32600 + zone for "N" and 32700 + zone for "S";
    the hemisphere passed by resample_and_extract_value is "N" exactly when
    the latitude is >= 0; zone 31 gives 32631 (N) and 32731 (S). *)
Theorem get_epsg_code_spec :
  (forall utm_zone : Z, get_epsg_code utm_zone "N" = Ok (32600 + utm_zone)%Z) /\
  (forall utm_zone : Z, get_epsg_code utm_zone "S" = Ok (32700 + utm_zone)%Z) /\
  (forall latitude : Q, hemisphere_of latitude = "N"%string <-> 0 <= latitude) /\
  (forall latitude : Q, hemisphere_of latitude = "S"%string <-> latitude < 0) /\
  get_epsg_code 31 "N" = Ok 32631%Z /\
  get_epsg_code 31 "S" = Ok 32731%Z.
Proof.
  split; [reflexivity|]. split; [reflexivity|].
  split; [| split; [| split; reflexivity]].
  - intros lat. unfold hemisphere_of. rewrite <- Qle_bool_iff.
    destruct (Qle_bool 0 lat); split; congruence.
  - intros lat. unfold hemisphere_of.
    destruct (Qle_bool 0 lat) eqn:E.
    + apply Qle_bool_iff in E. split; [discriminate | intros; lra].
    + split; [intros _ | reflexivity].
      apply Qnot_le_lt. intros Hle. apply Qle_bool_iff in Hle. congruence.
Qed.

(** ** C6 *)

(** C6 (counterexample): with a negative scale factor int() and floor
    part ways: width 3, old resolution 2, new resolution -1 (factor -1/2)
    requests width int(-1.5) = -1, while floor(-1.5) = -2. *)
Lemma dst_shape_floor_counterexample :
  dst_shape 3 3 2 (-1) = Ok ((-1)%Z, (-1)%Z) /\
  Qfloor (inject_Z 3 * (-1 / 2)) = (-2)%Z.
Proof. split; reflexivity. Qed.

(** C6 (amended): for old_resolution_meters <> 0 the requested shape uses
    the one factor new / old on both axes, width = int(width * factor) and
    height = int(height * factor) (truncation toward zero), which is
    floor(width * factor), floor(height * factor) whenever factor >= 0;
    old_resolution_meters = 0 raises ZeroDivisionError. *)
Theorem dst_shape_spec (width height : nat) (old_resolution_meters new_resolution_meters : Q) :
  ~ old_resolution_meters == 0 ->
  let factor := new_resolution_meters / old_resolution_meters in
  dst_shape width height old_resolution_meters new_resolution_meters =
    Ok (py_int (inject_Z (Z.of_nat width) * factor),
        py_int (inject_Z (Z.of_nat height) * factor)) /\
  (0 <= factor ->
   dst_shape width height old_resolution_meters new_resolution_meters =
     Ok (Qfloor (inject_Z (Z.of_nat width) * factor),
         Qfloor (inject_Z (Z.of_nat height) * factor))) /\
  dst_shape width height 0 new_resolution_meters = Err ZeroDivisionError.
Proof.
  intros Hold factor.
  assert (E : dst_shape width height old_resolution_meters new_resolution_meters =
    Ok (py_int (inject_Z (Z.of_nat width) * factor),
        py_int (inject_Z (Z.of_nat height) * factor))).
  { unfold dst_shape, py_div.
    destruct (Qeq_bool old_resolution_meters 0) eqn:Hb.
    - apply Qeq_bool_iff in Hb. contradiction.
    - reflexivity. }
  split; [exact E|]. split; [| reflexivity].
  intros Hf. rewrite E.
  assert (Hnat : forall n : nat, 0 <= inject_Z (Z.of_nat n)).
  { intros n. change 0 with (inject_Z 0). rewrite <- Zle_Qle. lia. }
  rewrite !py_int_nonneg_floor by (apply Qmult_le_0_compat; [apply Hnat | exact Hf]).
  reflexivity.
Qed.

Lemma dst_shape_spec_witness :
  ~ 100 == 0 /\ dst_shape 100 80 100 250 = Ok (250%Z, 200%Z).
Proof.
  split.
  - vm_compute. discriminate.
  - apply (proj1 (dst_shape_spec 100 80 100 250 ltac:(vm_compute; discriminate))).
Defined.

(** ** The filter window: footprint, reshape and the centre cell *)

Lemma nth_map_seq {A} (F : nat -> A) (n k : nat) (d : A) :
  (k < n)%nat -> nth k (map F (seq 0 n)) d = F k.
Proof.
  intros Hk.
  rewrite nth_indep with (d' := F 0%nat) by (rewrite length_map, length_seq; exact Hk).
  rewrite map_nth, seq_nth by exact Hk. reflexivity.
Qed.

(** Row [k] of a row-major reshape of blocks of equal length [c] is block [k]. *)
Lemma reshape_concat_row {A} (blocks : list (list A)) (c k : nat) :
  Forall (fun b => List.length b = c) blocks -> (k < List.length blocks)%nat ->
  firstn c (skipn (k * c) (List.concat blocks)) = nth k blocks [].
Proof.
  revert k. induction blocks as [|b rest IH]; intros k Hall Hk; simpl in Hk; [lia|].
  inversion Hall as [|? ? Hb Hrest]; subst. simpl List.concat.
  destruct k as [|k].
  - simpl skipn. rewrite firstn_app, Nat.sub_diag, firstn_all. simpl. apply app_nil_r.
  - rewrite skipn_app, skipn_all2 by (simpl; lia). simpl app.
    replace (List.length b + k * List.length b - List.length b)%nat
      with (k * List.length b)%nat by lia.
    apply IH; [exact Hrest | lia].
Qed.

Lemma footprint_center (g : list (list pix)) (size : nat) (i j : Z) :
  (0 < size)%nat ->
  nth (size / 2) (nth (size / 2) (reshape (footprint g size i j) size size) []) NaN =
  cell g i j.
Proof.
  intros Hs.
  assert (Hh : (size / 2 < size)%nat) by (apply Nat.div_lt; lia).
  unfold reshape. rewrite (nth_map_seq _ size) by exact Hh.
  unfold footprint. rewrite flat_map_concat_map.
  rewrite reshape_concat_row.
  - rewrite (nth_map_seq _ size) by exact Hh.
    rewrite (nth_map_seq _ size) by exact Hh.
    f_equal; lia.
  - apply Forall_forall. intros b Hb. apply in_map_iff in Hb.
    destruct Hb as [a [<- _]]. rewrite length_map, length_seq. reflexivity.
  - rewrite length_map, length_seq. exact Hh.
Qed.

Lemma reshape_map {A B} (f : A -> B) (w : list A) (r c : nat) :
  reshape (map f w) r c = map (map f) (reshape w r c).
Proof.
  unfold reshape. rewrite map_map. apply map_ext. intros k.
  rewrite skipn_map, firstn_map. reflexivity.
Qed.

(** The centre of the float64 buffer is the converted centre cell. *)
Lemma footprint_center_f64 (g : list (list pix)) (size : nat) (i j : Z) :
  (0 < size)%nat ->
  nth (size / 2) (nth (size / 2)
    (reshape (map pix_to_f64 (footprint g size i j)) size size) []) S754_nan =
  pix_to_f64 (cell g i j).
Proof.
  intros Hs. rewrite <- (footprint_center g size i j Hs).
  rewrite reshape_map.
  change (@nil f64) with (map pix_to_f64 []).
  rewrite map_nth.
  change S754_nan with (pix_to_f64 NaN). apply map_nth.
Qed.

Lemma generic_filter_ok (out_of_range : dtype -> f64 -> Z) (dt : dtype)
  (g : list (list pix)) (f : list f64 -> f64) (size : nat) :
  dt <> complex_dtype -> (0 < size)%nat ->
  generic_filter out_of_range dt g f size = Ok (generic_filter_output out_of_range dt g f size).
Proof.
  intros Hdt Hs. unfold generic_filter.
  replace (size =? 0)%nat with false by (symmetry; apply Nat.eqb_neq; lia).
  destruct dt; [reflexivity | reflexivity | reflexivity | contradiction].
Qed.

Lemma generic_filter_inv (out_of_range : dtype -> f64 -> Z) (dt : dtype)
  (g : list (list pix)) (f : list f64 -> f64) (size : nat) (out : list (list npval)) :
  generic_filter out_of_range dt g f size = Ok out ->
  out = generic_filter_output out_of_range dt g f size.
Proof.
  unfold generic_filter.
  destruct dt; try discriminate; destruct (size =? 0)%nat; try discriminate;
    intros H; injection H as <-; reflexivity.
Qed.

Lemma generic_filter_nth (out_of_range : dtype -> f64 -> Z) (dt : dtype)
  (g : list (list pix)) (f : list f64 -> f64) (size i j : nat) (d : npval) :
  (i < List.length g)%nat -> (j < List.length (nth i g []))%nat ->
  nth j (nth i (generic_filter_output out_of_range dt g f size) []) d =
  np_cast out_of_range dt (f (map pix_to_f64 (footprint g size (Z.of_nat i) (Z.of_nat j)))).
Proof.
  intros Hi Hj. unfold generic_filter_output.
  rewrite (nth_map_seq _ (List.length g)) by exact Hi.
  rewrite (nth_map_seq _ (List.length (nth i g []))) by exact Hj. reflexivity.
Qed.

Lemma generic_filter_shape (out_of_range : dtype -> f64 -> Z) (dt : dtype)
  (g : list (list pix)) (f : list f64 -> f64) (size : nat) :
  List.length (generic_filter_output out_of_range dt g f size) = List.length g /\
  forall i, List.length (nth i (generic_filter_output out_of_range dt g f size) []) =
            List.length (nth i g []).
Proof.
  unfold generic_filter_output. split.
  - rewrite length_map, length_seq. reflexivity.
  - intros i. destruct (Nat.lt_ge_cases i (List.length g)) as [Hi | Hi].
    + rewrite (nth_map_seq _ (List.length g)) by exact Hi.
      rewrite length_map, length_seq. reflexivity.
    + rewrite !nth_overflow; [reflexivity | | ].
      * exact Hi.
      * rewrite length_map, length_seq. exact Hi.
Qed.

Lemma cell_in_range (g : list (list pix)) (i j : nat) :
  (i < List.length g)%nat -> (j < List.length (nth i g []))%nat ->
  cell g (Z.of_nat i) (Z.of_nat j) = nth j (nth i g []) NaN.
Proof.
  intros Hi Hj. unfold cell.
  replace ((Z.of_nat i <? 0)%Z || (Z.of_nat j <? 0)%Z) with false
    by (symmetry; apply orb_false_iff; split; apply Z.ltb_ge; lia).
  rewrite !Nat2Z.id. apply nth_indep. exact Hj.
Qed.

Lemma affine_invert_inverse (A Ainv : affine) :
  affine_invert A = Ok Ainv ->
  forall p : Q * Q,
    fst (affine_mul A (affine_mul Ainv p)) == fst p /\
    snd (affine_mul A (affine_mul Ainv p)) == snd p.
Proof.
  unfold affine_invert. destruct (Qeq_bool (determinant A) 0) eqn:Hd; [discriminate|].
  intros Heq. injection Heq as <-. intros [x y].
  assert (Hnz : ~ sa A * se A - sb A * sd A == 0).
  { intros Hz. apply Qeq_bool_iff in Hz. unfold determinant in Hd. congruence. }
  unfold determinant. simpl. split; field; exact Hnz.
Qed.

Section CapabilityProperties.

Variables raster crs : Type.
Variable ds_crs : raster -> crs.
Variables ds_width ds_height : raster -> nat.
Variable ds_bounds : raster -> bounds.
Variable ds_index : raster -> Q -> Q -> Z * Z.
Variable ds_read : raster -> Z * Z -> Z * Z -> result (list (list pix)).
Variable ds_read_resampled :
  raster -> Z * Z -> Z * Z -> Z * Z -> result (list (list pix)).
Variable crs_from_epsg : Z -> crs.
Variable transform_xy : crs -> crs -> Q -> Q -> Q * Q.
Variable calculate_default_transform :
  crs -> crs -> nat -> nat -> bounds -> Z -> Z -> affine * Z * Z.
Variable ds_dtype : raster -> dtype.
Variable out_of_range : dtype -> f64 -> Z.

Local Abbreviation resample :=
  (resample_and_extract_value raster crs ds_crs ds_width ds_height ds_bounds
     ds_read_resampled crs_from_epsg transform_xy calculate_default_transform).
Local Abbreviation extract_values :=
  (extract_values_at_coordinates raster ds_bounds ds_index ds_read).
Local Abbreviation lee :=
  (lee_filter raster ds_bounds ds_index ds_read ds_dtype out_of_range).

(** A filtered sub-grid comes from a successful read and a successful
    generic_filter on it. *)
Lemma lee_filter_some (window_size : nat) (dataset : raster) (coordinate : Q * Q)
  (out : list (list npval)) :
  lee window_size dataset coordinate = Ok (Some out) ->
  exists window : list (list pix),
    (let '(row, col) := ds_index dataset (snd coordinate) (fst coordinate) in
     ds_read dataset (row, row + Z.of_nat window_size)%Z
             (col, col + Z.of_nat window_size)%Z = Ok window) /\
    generic_filter out_of_range (ds_dtype dataset) window
                   (lee_filter_single_pixel window_size) window_size = Ok out.
Proof.
  unfold lee_filter.
  destruct (in_bounds (ds_bounds dataset) coordinate); [|discriminate].
  destruct (ds_index dataset (snd coordinate) (fst coordinate)) as [row col].
  destruct (ds_read dataset (row, row + Z.of_nat window_size)%Z
                    (col, col + Z.of_nat window_size)%Z) as [window | e]; cbn [bind].
  - destruct (generic_filter _ _ _ _ _) as [out' | e] eqn:Hg.
    + intros H. injection H as <-. exists window. split; [reflexivity | exact Hg].
    + destruct e; discriminate.
  - destruct e; discriminate.
Qed.

(** ** C2 *)

(** C2 (corrected): for window_size > 0, every pixel (i, j) of the sub-grid
    read by lee_filter is computed in float64 from the float64 buffer of its
    window_size x window_size neighbourhood (zero padded outside the
    sub-grid): np.mean of it when np.var of it == 0, and otherwise
    center * variance / (variance + 1), center being the pixel's own value.
    scipy stores that double in an array of the raster's dtype: unchanged for
    float64, truncated toward zero for an integer dtype (when the truncated
    value fits the dtype). *)
Theorem lee_filter_pixel_rule (window_size : nat) (dataset : raster)
  (coordinate : Q * Q) (out : list (list npval)) :
  (0 < window_size)%nat ->
  lee window_size dataset coordinate = Ok (Some out) ->
  (exists window : list (list pix),
    (let '(row, col) := ds_index dataset (snd coordinate) (fst coordinate) in
     ds_read dataset (row, row + Z.of_nat window_size)%Z
             (col, col + Z.of_nat window_size)%Z = Ok window) /\
    List.length out = List.length window /\
    forall i j : nat,
      (i < List.length window)%nat -> (j < List.length (nth i window []))%nat ->
      let nbhd := map pix_to_f64 (footprint window window_size (Z.of_nat i) (Z.of_nat j)) in
      let local_mean := np_mean nbhd in
      let local_variance := np_var nbhd in
      nth j (nth i out []) (IVal 0) =
        np_cast out_of_range (ds_dtype dataset)
          (if f_eqb local_variance f_zero then local_mean
           else fdiv (fmul (pix_to_f64 (nth j (nth i window []) NaN)) local_variance)
                     (fadd local_variance f_one))) /\
  (forall x : f64, np_cast out_of_range float64 x = FVal x) /\
  (forall (signed : bool) (bits : Z) (x : f64) (z : Z),
     f_trunc x = Some z -> int_dtype_holds signed bits z = true ->
     np_cast out_of_range (int_dtype signed bits) x = IVal z).
Proof.
  intros Hs Hlee.
  split; [| split; [reflexivity|]].
  - destruct (lee_filter_some _ _ _ _ Hlee) as [window [Hr Hg]].
    apply generic_filter_inv in Hg. subst out.
    exists window. split; [exact Hr|]. split.
    + apply generic_filter_shape.
    + intros i j Hi Hj. cbv zeta.
      rewrite generic_filter_nth by assumption.
      unfold lee_filter_single_pixel. cbv zeta.
      rewrite footprint_center_f64 by exact Hs.
      rewrite cell_in_range by assumption. reflexivity.
  - intros signed bits x z Ht Hz. simpl. rewrite Ht, Hz. reflexivity.
Qed.

(** ** C7 *)

(** C7: for an in-bounds point with index (row, col), a window_size > 0 and
    a real (not complex) band, lee_filter asks the raster for rows
    [row, row + window_size) and columns [col, col + window_size), i.e. the
    window starting at the point and extending down and right, and returns
    the whole filtered grid generic_filter makes of it, of the shape of what
    was read, rather than one value. *)
Theorem lee_filter_window (window_size : nat) (dataset : raster) (coordinate : Q * Q)
  (row col : Z) (window : list (list pix)) :
  (0 < window_size)%nat ->
  ds_dtype dataset <> complex_dtype ->
  in_bounds (ds_bounds dataset) coordinate = true ->
  ds_index dataset (snd coordinate) (fst coordinate) = (row, col) ->
  ds_read dataset (row, row + Z.of_nat window_size)%Z
          (col, col + Z.of_nat window_size)%Z = Ok window ->
  exists out : list (list npval),
    lee window_size dataset coordinate = Ok (Some out) /\
    generic_filter out_of_range (ds_dtype dataset) window
                   (lee_filter_single_pixel window_size) window_size = Ok out /\
    List.length out = List.length window /\
    (forall i, List.length (nth i out []) = List.length (nth i window [])).
Proof.
  intros Hs Hdt Hin Hidx Hread.
  pose proof (generic_filter_ok out_of_range (ds_dtype dataset) window
                (lee_filter_single_pixel window_size) window_size Hdt Hs) as Hg.
  eexists. split; [| split; [exact Hg | apply generic_filter_shape]].
  unfold lee_filter. rewrite Hin, Hidx, Hread. cbn [bind]. rewrite Hg. reflexivity.
Qed.

(** ** C8 *)

(** C8: a point strictly outside the bounds (longitude left of [left] or
    right of [right], or latitude below [bottom] or above [top]) makes
    lee_filter return None. *)
Theorem lee_filter_outside (window_size : nat) (dataset : raster) (coordinate : Q * Q) :
  (snd coordinate < left (ds_bounds dataset) \/ right (ds_bounds dataset) < snd coordinate \/
   fst coordinate < bottom (ds_bounds dataset) \/ top (ds_bounds dataset) < fst coordinate) ->
  lee window_size dataset coordinate = Ok None.
Proof.
  intros Hout. unfold lee_filter.
  replace (in_bounds (ds_bounds dataset) coordinate) with false; [reflexivity|].
  symmetry. unfold in_bounds.
  destruct Hout as [H | [H | [H | H]]];
    repeat rewrite andb_false_iff;
    [left; left; left | left; left; right | left; right | right];
    apply not_true_iff_false; rewrite Qle_bool_iff; apply Qlt_not_le; exact H.
Qed.

(** ** C10 *)

(** C10: whenever extract_values_at_coordinates returns, its list has
    exactly one element, a pixel value or None. *)
Theorem extract_values_single (dataset : raster) (coordinate : Q * Q)
  (values : list (option pix)) :
  extract_values dataset coordinate = Ok values ->
  exists v : option pix, values = [v].
Proof.
  unfold extract_values_at_coordinates.
  destruct (in_bounds (ds_bounds dataset) coordinate).
  - destruct (ds_index dataset (snd coordinate) (fst coordinate)) as [row col].
    destruct (w <- ds_read dataset (row, row + 1)%Z (col, col + 1)%Z ;; np_get2 w 0 0)
      as [value | []]; intros H; inversion H; eauto.
  - intros H. injection H as <-. eauto.
Qed.

(** ** C5 *)

(** C5: resample_and_extract_value inverts the affine transform returned
    by calculate_default_transform (a true inverse), applies it to
    (easting, northing) to get the fractional (column, row), and indexes the
    resampled grid at int(row), int(col); int() truncates toward zero (floor
    for non-negative values, ceiling for negative ones), it does not round. *)
Theorem resample_pixel_address (dataset : raster) (coordinate : Q * Q)
  (old_resolution_meters new_resolution_meters : Q) (epsg_code : Z)
  (easting northing : Q) (req_width req_height : Z) (dst_transform : affine)
  (dst_width dst_height : Z) (data : list (list pix)) :
  get_epsg_code (get_utm_zone (snd coordinate)) (hemisphere_of (fst coordinate)) = Ok epsg_code ->
  transform_xy (ds_crs dataset) (crs_from_epsg epsg_code) (snd coordinate) (fst coordinate)
    = (easting, northing) ->
  dst_shape (ds_width dataset) (ds_height dataset) old_resolution_meters new_resolution_meters
    = Ok (req_width, req_height) ->
  calculate_default_transform (ds_crs dataset) (crs_from_epsg epsg_code)
    (ds_width dataset) (ds_height dataset) (ds_bounds dataset) req_width req_height
    = (dst_transform, dst_width, dst_height) ->
  ds_read_resampled dataset (0, dst_height)%Z (0, dst_width)%Z (dst_height, dst_width)
    = Ok data ->
  ~ determinant dst_transform == 0 ->
  exists inv : affine,
    affine_invert dst_transform = Ok inv /\
    (forall p : Q * Q,
        fst (affine_mul dst_transform (affine_mul inv p)) == fst p /\
        snd (affine_mul dst_transform (affine_mul inv p)) == snd p) /\
    resample dataset coordinate old_resolution_meters new_resolution_meters =
      read_cell data (py_int (snd (affine_mul inv (easting, northing))))
                     (py_int (fst (affine_mul inv (easting, northing)))) /\
    (forall q : Q, 0 <= q -> py_int q = Qfloor q) /\
    (forall q : Q, q <= 0 -> py_int q = (- Qfloor (- q))%Z) /\
    py_int (27 # 10) = 2%Z.
Proof.
  intros Hepsg Hxy Hshape Hcdt Hread Hdet.
  assert (Hinv : exists inv, affine_invert dst_transform = Ok inv).
  { unfold affine_invert. destruct (Qeq_bool (determinant dst_transform) 0) eqn:E.
    - apply Qeq_bool_iff in E. contradiction.
    - eexists. reflexivity. }
  destruct Hinv as [inv Hinv]. exists inv.
  split; [exact Hinv|].
  split; [exact (affine_invert_inverse _ _ Hinv)|].
  split; [| split; [exact py_int_nonneg_floor | split; [exact py_int_nonpos | reflexivity]]].
  unfold resample_and_extract_value. rewrite Hepsg. cbn [bind].
  rewrite Hxy, Hshape. cbn [bind]. rewrite Hcdt, Hread. cbn [bind].
  unfold extract_pixel. rewrite Hinv. cbn [bind].
  destruct (affine_mul inv (easting, northing)). reflexivity.
Qed.

End CapabilityProperties.

(** ** C1 *)

(** C1 (code_bug): a point left of the resampled grid is not reported as
    None.  In the in-memory instance the point (lat 1.5, lon -1.5) lies
    outside the bounds (0, 0)-(3, 2) and maps to fractional column -1.5;
    int() gives -1, numpy reads it as the last column, and the function
    returns 3 instead of None. *)
Theorem resample_outside_point_wraps :
  in_bounds (InMemory.ds_bounds InMemory.small) (3 # 2, -3 # 2) = false /\
  InMemory.resample InMemory.small (3 # 2, -3 # 2) 1 1 = Ok (Some 3).
Proof. split; vm_compute; reflexivity. Qed.

(** ** Witnesses *)

Lemma get_epsg_code_spec_witness :
  hemisphere_of 0 = "N"%string /\ get_epsg_code 31 (hemisphere_of 0) = Ok 32631%Z.
Proof.
  destruct get_epsg_code_spec as [_ [_ [Hn _]]].
  assert (H : hemisphere_of 0 = "N"%string) by (apply Hn; vm_compute; congruence).
  split; [exact H | rewrite H; reflexivity].
Defined.

(** C2 counterexample: on the uint8 band [[1, 0], [0, 0]] read as a 2 x 2
    window at (row 0, col 0), the neighbourhood of pixel (0, 0) is
    [0, 0, 0, 1] with centre 1, for which the rule gives 3/19; scipy stores
    it in a uint8 array, and every filtered pixel comes out 0. *)
Lemma lee_filter_integer_counterexample :
  footprint (InMemory.band InMemory.ramp_u8) 2 0%Z 0%Z = [Num 0; Num 0; Num 0; Num 1] /\
  (lee_value_spec [0; 0; 0; 1] 1 == 3 # 19) /\
  InMemory.lee 2 InMemory.ramp_u8 (2, 0) = Ok (Some [[IVal 0; IVal 0]; [IVal 0; IVal 0]]).
Proof. split; [| split]; vm_compute; reflexivity. Qed.

Lemma lee_filter_pixel_rule_witness :
  (0 < 2)%nat /\
  InMemory.lee 2 InMemory.square (3, 0)
    = Ok (Some (generic_filter_output InMemory.out_of_range float64
                  [[Num 1; Num 1]; [Num 1; Num 2]] (lee_filter_single_pixel 2) 2)) /\
  exists window : list (list pix),
    InMemory.ds_read InMemory.square (0, 2)%Z (0, 2)%Z = Ok window /\
    List.length window = 2%nat.
Proof.
  assert (H : InMemory.lee 2 InMemory.square (3, 0)
    = Ok (Some (generic_filter_output InMemory.out_of_range float64
                  [[Num 1; Num 1]; [Num 1; Num 2]] (lee_filter_single_pixel 2) 2)))
    by (vm_compute; reflexivity).
  split; [lia|]. split; [exact H|].
  destruct (lee_filter_pixel_rule InMemory.raster InMemory.ds_bounds InMemory.ds_index
              InMemory.ds_read InMemory.ds_dtype InMemory.out_of_range
              2 InMemory.square (3, 0) _ ltac:(lia) H)
    as [[w [Hr [Hl _]]] _].
  exists w. split; [exact Hr | rewrite <- Hl; vm_compute; reflexivity].
Defined.

Lemma lee_filter_window_witness :
  exists out : list (list npval),
    InMemory.lee 2 InMemory.square (3, 0) = Ok (Some out) /\ List.length out = 2%nat.
Proof.
  destruct (lee_filter_window InMemory.raster InMemory.ds_bounds InMemory.ds_index
              InMemory.ds_read InMemory.ds_dtype InMemory.out_of_range
              2 InMemory.square (3, 0) 0 0
              [[Num 1; Num 1]; [Num 1; Num 2]]
              ltac:(lia) ltac:(vm_compute; discriminate)
              ltac:(vm_compute; reflexivity) ltac:(vm_compute; reflexivity)
              ltac:(vm_compute; reflexivity))
    as [out [H1 [_ [H3 _]]]].
  exists out. split; [exact H1 | rewrite H3; reflexivity].
Defined.

Lemma lee_filter_outside_witness :
  top (InMemory.ds_bounds InMemory.square) < 5 /\
  InMemory.lee 2 InMemory.square (5, 1) = Ok None.
Proof.
  split; [vm_compute; reflexivity|].
  apply lee_filter_outside. right. right. right. vm_compute. reflexivity.
Defined.

Lemma extract_values_single_witness :
  InMemory.extract_values InMemory.small (3 # 2, 5 # 2) = Ok [Some (Num 3)] /\
  exists v : option pix, [Some (Num 3)] = [v].
Proof.
  assert (H : InMemory.extract_values InMemory.small (3 # 2, 5 # 2) = Ok [Some (Num 3)])
    by (vm_compute; reflexivity).
  split; [exact H|].
  exact (extract_values_single InMemory.raster InMemory.ds_bounds InMemory.ds_index InMemory.ds_read InMemory.small (3 # 2, 5 # 2) _ H).
Defined.

Lemma resample_pixel_address_witness :
  InMemory.resample InMemory.small (1 # 2, 5 # 2) 1 1 = Ok (Some 6).
Proof.
  destruct (resample_pixel_address InMemory.raster InMemory.crs InMemory.ds_crs InMemory.ds_width InMemory.ds_height
              InMemory.ds_bounds InMemory.ds_read_resampled InMemory.crs_from_epsg
              InMemory.transform_xy InMemory.calculate_default_transform
              InMemory.small (1 # 2, 5 # 2) 1 1 32631 (5 # 2) (1 # 2) 3 2
              (mk_affine 1 0 0 0 (-1) 2) 3 2 (InMemory.band InMemory.small)
              ltac:(vm_compute; reflexivity) ltac:(vm_compute; reflexivity)
              ltac:(vm_compute; reflexivity) ltac:(vm_compute; reflexivity)
              ltac:(vm_compute; reflexivity) ltac:(vm_compute; discriminate))
    as [inv [Hinv [_ [Hres _]]]].
  vm_compute in Hinv. injection Hinv as <-.
  unfold InMemory.resample. rewrite Hres. vm_compute. reflexivity.
Defined.

(** * Further properties of the module *)

(** ** get_utm_zone beyond [-180, 180) *)

(** Every longitude of 180 or more falls in zone 1: the computed zone is at
    least 61 and the reset applies. *)
Theorem get_utm_zone_east_wrap (L : Q) : 180 <= L -> get_utm_zone L = 1%Z.
Proof.
  intros H. unfold get_utm_zone.
  assert (Hq : 60 <= (L + 180) / 6) by (apply Qle_shift_div_l; [reflexivity | lra]).
  rewrite py_int_nonneg_floor by lra.
  assert (Hf : (60 <= Qfloor ((L + 180) / 6))%Z).
  { change 60%Z with (Qfloor (inject_Z 60)). apply Qfloor_resp_le. exact Hq. }
  destruct (Qfloor ((L + 180) / 6) + 1 >? 60)%Z eqn:E; [reflexivity|].
  rewrite Z.gtb_ltb in E. apply Z.ltb_ge in E. lia.
Qed.

Lemma get_utm_zone_east_wrap_witness : get_utm_zone 200 = 1%Z.
Proof. apply get_utm_zone_east_wrap. vm_compute. congruence. Defined.

(** Longitudes of -186 or less are not reset: int() truncates toward zero
    and the result is a zone number of 0 or less. *)
Theorem get_utm_zone_west_nonpositive (L : Q) : L <= -186 -> (get_utm_zone L <= 0)%Z.
Proof.
  intros H. unfold get_utm_zone.
  assert (Hq : (L + 180) / 6 <= -1) by (apply Qle_shift_div_r; [reflexivity | lra]).
  rewrite py_int_nonpos by lra.
  assert (Hf : (1 <= Qfloor (- ((L + 180) / 6)))%Z).
  { change 1%Z with (Qfloor (inject_Z 1)). apply Qfloor_resp_le.
    change (inject_Z 1) with 1. lra. }
  destruct (- Qfloor (- ((L + 180) / 6)) + 1 >? 60)%Z eqn:E.
  - apply Z.gtb_lt in E. lia.
  - lia.
Qed.

Lemma get_utm_zone_west_nonpositive_witness : (get_utm_zone (-200) <= 0)%Z.
Proof. apply get_utm_zone_west_nonpositive. vm_compute. congruence. Defined.

(** ** The EPSG code resample_and_extract_value asks for *)

(** For every coordinate the zone/hemisphere pair built by
    resample_and_extract_value is accepted by get_epsg_code; for longitudes
    in [-180, 180) the code is 32601..32660 when the latitude is >= 0 and
    32701..32760 otherwise. *)
Theorem target_epsg_code (lat lon : Q) :
  -180 <= lon < 180 ->
  exists code : Z,
    get_epsg_code (get_utm_zone lon) (hemisphere_of lat) = Ok code /\
    (0 <= lat -> (32601 <= code <= 32660)%Z) /\
    (lat < 0 -> (32701 <= code <= 32760)%Z).
Proof.
  intros Hlon.
  pose proof (proj1 (proj2 (proj2 get_utm_zone_spec)) lon Hlon) as Hz.
  unfold hemisphere_of. destruct (Qle_bool 0 lat) eqn:E.
  - eexists. split; [reflexivity|]. split; [lia|].
    intros Hlt. apply Qle_bool_iff in E. lra.
  - eexists. split; [reflexivity|]. split; [|lia].
    intros Hle. apply Qle_bool_iff in Hle. congruence.
Qed.

Lemma target_epsg_code_witness :
  exists code : Z,
    get_epsg_code (get_utm_zone 2) (hemisphere_of (-5)) = Ok code /\
    (0 <= -5 -> (32601 <= code <= 32660)%Z) /\
    (-5 < 0 -> (32701 <= code <= 32760)%Z).
Proof. apply target_epsg_code. split; vm_compute; congruence. Defined.

(** ** The requested shape when the resolution is unchanged *)

(** With equal (non-zero) old and new resolutions the requested target
    shape is exactly the raster's own width and height. *)
Theorem dst_shape_same_resolution (width height : nat) (r : Q) :
  ~ r == 0 -> dst_shape width height r r = Ok (Z.of_nat width, Z.of_nat height).
Proof.
  intros Hr. unfold dst_shape, py_div.
  destruct (Qeq_bool r 0) eqn:E; [apply Qeq_bool_iff in E; contradiction|].
  cbn [bind].
  assert (Hrr : r / r == 1) by (field; exact Hr).
  assert (Hn : forall n : nat, py_int (inject_Z (Z.of_nat n) * (r / r)) = Z.of_nat n).
  { intros n.
    assert (Hx : inject_Z (Z.of_nat n) * (r / r) == inject_Z (Z.of_nat n))
      by (rewrite Hrr; apply Qmult_1_r).
    rewrite py_int_nonneg_floor.
    - rewrite (Qfloor_comp _ _ Hx). apply Qfloor_Z.
    - rewrite Hx. change 0 with (inject_Z 0). rewrite <- Zle_Qle. lia. }
  rewrite !Hn. reflexivity.
Qed.

Lemma dst_shape_same_resolution_witness : dst_shape 100 50 30 30 = Ok (100%Z, 50%Z).
Proof. apply dst_shape_same_resolution. vm_compute. discriminate. Defined.

(** ** numpy indexing inside the try block *)

Lemma np_index_in_range {A} (xs : list A) (i : nat) (d : A) :
  (i < List.length xs)%nat -> np_index xs (Z.of_nat i) = Ok (nth i xs d).
Proof.
  intros Hi. unfold np_index.
  replace (Z.of_nat i <? 0)%Z with false by (symmetry; apply Z.ltb_ge; lia).
  replace (Z.of_nat i <? 0)%Z with false by (symmetry; apply Z.ltb_ge; lia).
  rewrite Nat2Z.id. rewrite (nth_error_nth' xs d Hi). reflexivity.
Qed.

Lemma np_index_negative {A} (xs : list A) (k : Z) :
  (1 <= k <= Z.of_nat (List.length xs))%Z ->
  np_index xs (- k) = np_index xs (Z.of_nat (List.length xs) - k).
Proof.
  intros Hk. unfold np_index.
  replace (- k <? 0)%Z with true by (symmetry; apply Z.ltb_lt; lia).
  replace (Z.of_nat (List.length xs) - k <? 0)%Z with false by (symmetry; apply Z.ltb_ge; lia).
  replace (Z.of_nat (List.length xs) + - k)%Z with (Z.of_nat (List.length xs) - k)%Z by lia.
  reflexivity.
Qed.

Lemma np_index_out_of_range {A} (xs : list A) (i : Z) :
  (Z.of_nat (List.length xs) <= i \/ i < - Z.of_nat (List.length xs))%Z ->
  np_index xs i = Err IndexError.
Proof.
  intros Hi. unfold np_index.
  destruct (i <? 0)%Z eqn:E.
  - apply Z.ltb_lt in E.
    replace (Z.of_nat (List.length xs) + i <? 0)%Z with true by (symmetry; apply Z.ltb_lt; lia).
    reflexivity.
  - apply Z.ltb_ge in E.
    replace (i <? 0)%Z with false by (symmetry; apply Z.ltb_ge; lia).
    rewrite (proj2 (nth_error_None xs (Z.to_nat i))) by lia. reflexivity.
Qed.

Lemma np_index_errors {A} (xs : list A) (i : Z) (e : exn) :
  np_index xs i = Err e -> e = IndexError.
Proof.
  unfold np_index. destruct (_ <? 0)%Z; [congruence|].
  destruct (nth_error _ _); congruence.
Qed.

Lemma np_get2_errors {A} (data : list (list A)) (r c : Z) (e : exn) :
  np_get2 data r c = Err e -> e = IndexError.
Proof.
  unfold np_get2. destruct (np_index data r) as [row|e'] eqn:E; cbn [bind].
  - apply np_index_errors.
  - intros H. injection H as <-. exact (np_index_errors _ _ _ E).
Qed.

(** A cell inside the grid is returned as its value, or None when it is
    NaN. *)
Theorem read_cell_in_range (data : list (list pix)) (r c : nat) :
  (r < List.length data)%nat -> (c < List.length (nth r data []))%nat ->
  read_cell data (Z.of_nat r) (Z.of_nat c) =
    match nth c (nth r data []) NaN with
    | Num v => Ok (Some v)
    | NaN => Ok None
    end.
Proof.
  intros Hr Hc. unfold read_cell, np_get2.
  rewrite (np_index_in_range data r []) by exact Hr. cbn [bind].
  rewrite (np_index_in_range _ c NaN) by exact Hc.
  destruct (nth c (nth r data []) NaN); reflexivity.
Qed.

Lemma read_cell_in_range_witness :
  read_cell [[Num 1; NaN]] (Z.of_nat 0) (Z.of_nat 1) = Ok None.
Proof. apply (read_cell_in_range [[Num 1; NaN]] 0%nat 1%nat); vm_compute; lia. Defined.

(** Negative indices are not caught: row -k and column -k (1 <= k <= the
    axis length) read the cell k places from the far end. *)
Theorem read_cell_negative_wrap (data : list (list pix)) :
  (forall (r : nat) (k : Z),
      (r < List.length data)%nat ->
      (1 <= k <= Z.of_nat (List.length (nth r data [])))%Z ->
      read_cell data (Z.of_nat r) (- k) =
      read_cell data (Z.of_nat r) (Z.of_nat (List.length (nth r data [])) - k)) /\
  (forall (k c : Z),
      (1 <= k <= Z.of_nat (List.length data))%Z ->
      read_cell data (- k) c = read_cell data (Z.of_nat (List.length data) - k) c).
Proof.
  split.
  - intros r k Hr Hk. unfold read_cell, np_get2.
    rewrite (np_index_in_range data r []) by exact Hr. cbn [bind].
    rewrite np_index_negative by exact Hk. reflexivity.
  - intros k c Hk. unfold read_cell, np_get2.
    rewrite np_index_negative by exact Hk. reflexivity.
Qed.

Lemma read_cell_negative_wrap_witness :
  read_cell [[Num 1; Num 2; Num 3]] (Z.of_nat 0) (-1) =
  read_cell [[Num 1; Num 2; Num 3]] (Z.of_nat 0) (3 - 1).
Proof.
  apply (proj1 (read_cell_negative_wrap [[Num 1; Num 2; Num 3]]) 0%nat 1%Z); vm_compute.
  - lia.
  - split; congruence.
Defined.

(** Indices past either end of an axis (beyond its length, or below minus
    its length) give None through the caught IndexError. *)
Theorem read_cell_out_of_range (data : list (list pix)) :
  (forall r c : Z,
      (Z.of_nat (List.length data) <= r \/ r < - Z.of_nat (List.length data))%Z ->
      read_cell data r c = Ok None) /\
  (forall (r : nat) (c : Z),
      (r < List.length data)%nat ->
      (Z.of_nat (List.length (nth r data [])) <= c \/
       c < - Z.of_nat (List.length (nth r data [])))%Z ->
      read_cell data (Z.of_nat r) c = Ok None).
Proof.
  split.
  - intros r c Hr. unfold read_cell, np_get2.
    rewrite np_index_out_of_range by exact Hr. reflexivity.
  - intros r c Hr Hc. unfold read_cell, np_get2.
    rewrite (np_index_in_range data r []) by exact Hr. cbn [bind].
    rewrite np_index_out_of_range by exact Hc. reflexivity.
Qed.

Lemma read_cell_out_of_range_witness :
  read_cell [[Num 1; Num 2; Num 3]] (Z.of_nat 0) 3 = Ok None.
Proof.
  apply (proj2 (read_cell_out_of_range [[Num 1; Num 2; Num 3]]) 0%nat 3%Z); vm_compute.
  - lia.
  - left. congruence.
Defined.

(** The lookup of lines 62-75 raises only when [~dst_transform] does, i.e.
    only for a transform of determinant 0; with an invertible transform it
    always returns a value or None. *)
Theorem extract_pixel_errors (data : list (list pix)) (T : affine) (easting northing : Q) :
  (forall e : exn, extract_pixel data T easting northing = Err e ->
     e = TransformNotInvertibleError /\ determinant T == 0) /\
  (~ determinant T == 0 -> exists o, extract_pixel data T easting northing = Ok o).
Proof.
  assert (Hcell : forall r c, exists o, read_cell data r c = Ok o).
  { intros r c. unfold read_cell.
    destruct (np_get2 data r c) as [v|e] eqn:E.
    - destruct (np_isnan v); [eauto|]. destruct v; eauto.
    - apply np_get2_errors in E. subst. eauto. }
  unfold extract_pixel, affine_invert.
  destruct (Qeq_bool (determinant T) 0) eqn:Hd; cbn [bind].
  - split.
    + intros e H. injection H as <-. split; [reflexivity|]. apply Qeq_bool_iff. exact Hd.
    + intros Hn. apply Qeq_bool_iff in Hd. contradiction.
  - match goal with |- context [affine_mul ?I (easting, northing)] =>
      destruct (affine_mul I (easting, northing)) as [pc pr] end.
    destruct (Hcell (py_int pr) (py_int pc)) as [o Ho].
    split.
    + intros e H. rewrite Ho in H. discriminate.
    + intros _. eauto.
Qed.

Lemma extract_pixel_errors_witness :
  exists o, extract_pixel [[Num 1]] (mk_affine 1 0 0 0 (-1) 1) 5 5 = Ok o.
Proof.
  apply (proj2 (extract_pixel_errors [[Num 1]] (mk_affine 1 0 0 0 (-1) 1) 5 5)).
  vm_compute. discriminate.
Defined.

(** ** lee_filter_single_pixel on NaN windows *)

Lemma fadd_nan_l (x : f64) : fadd S754_nan x = S754_nan.
Proof. reflexivity. Qed.

Lemma fadd_nan_r (x : f64) : fadd x S754_nan = S754_nan.
Proof. destruct x; reflexivity. Qed.

Lemma fold_fadd_nan (xs : list f64) (a : f64) :
  a = S754_nan \/ In S754_nan xs -> fold_left fadd xs a = S754_nan.
Proof.
  revert a. induction xs as [|x xs IH]; intros a H; cbn [fold_left].
  - destruct H as [H | []]. exact H.
  - apply IH. destruct H as [-> | [-> | H]].
    + left. apply fadd_nan_l.
    + left. apply fadd_nan_r.
    + right. exact H.
Qed.

Definition acc8_has_nan (r : acc8) : Prop :=
  In S754_nan [r0 r; r1 r; r2 r; r3 r; r4 r; r5 r; r6 r; r7 r].

Lemma acc8_sum_nan (r : acc8) : acc8_has_nan r -> acc8_sum r = S754_nan.
Proof.
  destruct r as [a0 a1 a2 a3 a4 a5 a6 a7]. unfold acc8_has_nan, acc8_sum. simpl.
  intros H; repeat destruct H as [H | H]; subst;
    repeat (rewrite ?fadd_nan_l, ?fadd_nan_r); first [reflexivity | destruct H].
Qed.

(** A NaN among the accumulators or the consumed blocks stays in an
    accumulator; otherwise it is in the rest. *)
Lemma pw_unrolled_nan (xs : list f64) (r : acc8) :
  acc8_has_nan r \/ In S754_nan xs ->
  acc8_has_nan (fst (pw_unrolled r xs)) \/ In S754_nan (snd (pw_unrolled r xs)).
Proof.
  remember (List.length xs) as n eqn:Hn. revert xs r Hn.
  induction n as [n IH] using lt_wf_ind. intros xs r Hn H.
  destruct xs as [|a0 [|a1 [|a2 [|a3 [|a4 [|a5 [|a6 [|a7 tl]]]]]]]];
    try (simpl; exact H).
  cbn [pw_unrolled]. apply (IH (List.length tl)); [simpl in Hn; lia | reflexivity |].
  destruct H as [H | H].
  - left. destruct r as [b0 b1 b2 b3 b4 b5 b6 b7]. unfold acc8_has_nan in *. simpl in *.
    repeat destruct H as [H | H]; subst; rewrite ?fadd_nan_l; tauto.
  - simpl in H. unfold acc8_has_nan. simpl.
    repeat destruct H as [H | H]; subst; rewrite ?fadd_nan_r; tauto.
Qed.

Lemma pairwise_sum_fuel_nan (fuel : nat) (xs : list f64) :
  (List.length xs <= fuel)%nat -> In S754_nan xs -> pairwise_sum_fuel fuel xs = S754_nan.
Proof.
  revert xs. induction fuel as [|fuel IH]; intros xs Hlen H.
  - destruct xs; [destruct H | simpl in Hlen; lia].
  - cbn [pairwise_sum_fuel]. cbv zeta.
    destruct (List.length xs <? 8)%nat eqn:E8.
    + apply fold_fadd_nan. right. exact H.
    + destruct (List.length xs <=? 128)%nat eqn:E128.
      * destruct xs as [|a0 [|a1 [|a2 [|a3 [|a4 [|a5 [|a6 [|a7 tl]]]]]]]];
          try (simpl in E8; discriminate).
        destruct (pw_unrolled (mk_acc8 a0 a1 a2 a3 a4 a5 a6 a7) tl) as [r rest] eqn:Eu.
        pose proof (pw_unrolled_nan tl (mk_acc8 a0 a1 a2 a3 a4 a5 a6 a7)) as Hu.
        rewrite Eu in Hu. simpl in Hu.
        apply fold_fadd_nan.
        destruct Hu as [Hr | Hr].
        -- simpl in H. unfold acc8_has_nan. simpl. tauto.
        -- left. apply acc8_sum_nan. exact Hr.
        -- right. exact Hr.
      * apply Nat.ltb_ge in E8. apply Nat.leb_gt in E128.
        set (n := List.length xs) in *.
        set (n2 := (n / 2 - (n / 2) mod 8)%nat).
        assert (Hd := Nat.div_mod n 2 ltac:(lia)).
        assert (Hm2 := Nat.mod_upper_bound n 2 ltac:(lia)).
        assert (Hm8 := Nat.mod_upper_bound (n / 2) 8 ltac:(lia)).
        assert (Hm8' := Nat.Div0.mod_le (n / 2) 8).
        assert (Hn2 : (1 <= n2 < n)%nat) by (unfold n2; lia).
        rewrite <- (firstn_skipn n2 xs) in H. apply in_app_or in H.
        destruct H as [H | H].
        -- rewrite (IH (firstn n2 xs)); [reflexivity | | exact H].
           rewrite length_firstn. lia.
        -- rewrite (IH (skipn n2 xs)); [apply fadd_nan_r | | exact H].
           rewrite length_skipn. lia.
Qed.

Lemma np_sum_nan (w : list f64) : In S754_nan w -> np_sum w = S754_nan.
Proof.
  intros H. unfold np_sum, pairwise_sum.
  rewrite pairwise_sum_fuel_nan by (auto with arith). reflexivity.
Qed.

Lemma lee_filter_single_pixel_nan_buffer (window_size : nat) (w : list f64) :
  In S754_nan w -> lee_filter_single_pixel window_size w = S754_nan.
Proof.
  intros H.
  assert (Hm : np_mean w = S754_nan)
    by (unfold np_mean; rewrite np_sum_nan by exact H; reflexivity).
  assert (Hv : np_var w = S754_nan).
  { unfold np_var. rewrite Hm. unfold np_mean. rewrite np_sum_nan; [reflexivity|].
    apply in_map_iff. exists S754_nan. split; [reflexivity | exact H]. }
  unfold lee_filter_single_pixel. cbv zeta. rewrite Hv.
  destruct (nth _ _ _); reflexivity.
Qed.

(** A NaN anywhere in the float64 buffer makes the filtered value NaN: the
    sum, mean and variance are NaN, [NaN == 0] is false, and the rule
    multiplies and divides by NaN. *)
Theorem lee_single_pixel_nan (window_size : nat) (w : list f64) :
  In S754_nan w -> lee_filter_single_pixel window_size w = S754_nan.
Proof. apply lee_filter_single_pixel_nan_buffer. Qed.

(** A cell of the grid lies in the footprint of every pixel whose
    neighbourhood covers it. *)
Lemma footprint_covers (g : list (list pix)) (size i j a b : nat) :
  (Z.of_nat i - Z.of_nat (size / 2) <= Z.of_nat a < Z.of_nat i - Z.of_nat (size / 2) + Z.of_nat size)%Z ->
  (Z.of_nat j - Z.of_nat (size / 2) <= Z.of_nat b < Z.of_nat j - Z.of_nat (size / 2) + Z.of_nat size)%Z ->
  In (cell g (Z.of_nat a) (Z.of_nat b)) (footprint g size (Z.of_nat i) (Z.of_nat j)).
Proof.
  intros Ha Hb. unfold footprint. apply in_flat_map.
  exists (Z.to_nat (Z.of_nat a - (Z.of_nat i - Z.of_nat (size / 2)))).
  split; [apply in_seq; lia|].
  apply in_map_iff.
  exists (Z.to_nat (Z.of_nat b - (Z.of_nat j - Z.of_nat (size / 2)))).
  split; [| apply in_seq; lia].
  rewrite !Z2Nat.id by lia. f_equal; lia.
Qed.

Lemma lee_single_pixel_nan_witness :
  lee_filter_single_pixel 1 [S754_nan] = S754_nan.
Proof. apply lee_single_pixel_nan. left. reflexivity. Defined.

(** ** What escapes the three public functions *)

Section PublicFunctionErrors.

Variables raster crs : Type.
Variable ds_crs : raster -> crs.
Variables ds_width ds_height : raster -> nat.
Variable ds_bounds : raster -> bounds.
Variable ds_index : raster -> Q -> Q -> Z * Z.
Variable ds_read : raster -> Z * Z -> Z * Z -> result (list (list pix)).
Variable ds_read_resampled :
  raster -> Z * Z -> Z * Z -> Z * Z -> result (list (list pix)).
Variable crs_from_epsg : Z -> crs.
Variable transform_xy : crs -> crs -> Q -> Q -> Q * Q.
Variable calculate_default_transform :
  crs -> crs -> nat -> nat -> bounds -> Z -> Z -> affine * Z * Z.
Variable ds_dtype : raster -> dtype.
Variable out_of_range : dtype -> f64 -> Z.

Local Abbreviation resample :=
  (resample_and_extract_value raster crs ds_crs ds_width ds_height ds_bounds
     ds_read_resampled crs_from_epsg transform_xy calculate_default_transform).
Local Abbreviation extract_values :=
  (extract_values_at_coordinates raster ds_bounds ds_index ds_read).
Local Abbreviation lee :=
  (lee_filter raster ds_bounds ds_index ds_read ds_dtype out_of_range).

(** extract_values_at_coordinates: out of bounds it returns [None] without
    reading; in bounds it returns the first cell of the 1 x 1 read as is (a
    NaN cell included), [None] when the read is empty or raises IndexError,
    and any other read error propagates. *)
Theorem extract_values_outcomes (dataset : raster) (coordinate : Q * Q) :
  (in_bounds (ds_bounds dataset) coordinate = false ->
   extract_values dataset coordinate = Ok [None]) /\
  (forall row col : Z,
     in_bounds (ds_bounds dataset) coordinate = true ->
     ds_index dataset (snd coordinate) (fst coordinate) = (row, col) ->
     (forall v cells rows,
        ds_read dataset (row, row + 1)%Z (col, col + 1)%Z = Ok ((v :: cells) :: rows) ->
        extract_values dataset coordinate = Ok [Some v]) /\
     (forall rows,
        ds_read dataset (row, row + 1)%Z (col, col + 1)%Z = Ok rows ->
        (rows = [] \/ exists rest, rows = [] :: rest) ->
        extract_values dataset coordinate = Ok [None]) /\
     (ds_read dataset (row, row + 1)%Z (col, col + 1)%Z = Err IndexError ->
        extract_values dataset coordinate = Ok [None]) /\
     (forall e, e <> IndexError ->
        ds_read dataset (row, row + 1)%Z (col, col + 1)%Z = Err e ->
        extract_values dataset coordinate = Err e)).
Proof.
  unfold extract_values_at_coordinates. split.
  - intros H. rewrite H. reflexivity.
  - intros row col Hin Hidx. rewrite Hin, Hidx.
    split; [| split; [| split]].
    + intros v cells rows Hr. rewrite Hr. reflexivity.
    + intros rows Hr Hempty. rewrite Hr. cbn [bind].
      destruct Hempty as [-> | [rest ->]]; reflexivity.
    + intros Hr. rewrite Hr. reflexivity.
    + intros e He Hr. rewrite Hr. cbn [bind]. destruct e; congruence.
Qed.

(** lee_filter turns an IndexError of its windowed read into None and lets
    any other read error through. *)
Theorem lee_filter_read_errors (window_size : nat) (dataset : raster)
  (coordinate : Q * Q) (row col : Z) (e : exn) :
  in_bounds (ds_bounds dataset) coordinate = true ->
  ds_index dataset (snd coordinate) (fst coordinate) = (row, col) ->
  ds_read dataset (row, row + Z.of_nat window_size)%Z
          (col, col + Z.of_nat window_size)%Z = Err e ->
  (e = IndexError -> lee window_size dataset coordinate = Ok None) /\
  (e <> IndexError -> lee window_size dataset coordinate = Err e).
Proof.
  intros Hin Hidx Hr. unfold lee_filter. rewrite Hin, Hidx, Hr. cbn [bind].
  split; [intros ->; reflexivity|]. intros He. destruct e; congruence.
Qed.

(** Once the windowed read succeeds, the errors of generic_filter escape
    lee_filter (only IndexError is caught): a complex band raises TypeError,
    and a window_size of 0 raises RuntimeError for any other band. *)
Theorem lee_filter_filter_errors (window_size : nat) (dataset : raster)
  (coordinate : Q * Q) (row col : Z) (window : list (list pix)) :
  in_bounds (ds_bounds dataset) coordinate = true ->
  ds_index dataset (snd coordinate) (fst coordinate) = (row, col) ->
  ds_read dataset (row, row + Z.of_nat window_size)%Z
          (col, col + Z.of_nat window_size)%Z = Ok window ->
  (ds_dtype dataset = complex_dtype ->
   lee window_size dataset coordinate = Err (OtherError "TypeError")) /\
  (ds_dtype dataset <> complex_dtype -> window_size = 0%nat ->
   lee window_size dataset coordinate = Err (OtherError "RuntimeError")).
Proof.
  intros Hin Hidx Hr. unfold lee_filter. rewrite Hin, Hidx, Hr. cbn [bind].
  unfold generic_filter. split.
  - intros ->. reflexivity.
  - intros Hdt ->. destruct (ds_dtype dataset); [reflexivity | reflexivity | reflexivity |].
    contradiction.
Qed.

(** On a float64 band a NaN cell of the read window makes NaN every
    filtered pixel whose window_size x window_size neighbourhood covers it. *)
Theorem lee_filter_nan_spreads (window_size : nat) (dataset : raster)
  (coordinate : Q * Q) (row col : Z) (window : list (list pix)) (i j a b : nat) :
  (0 < window_size)%nat ->
  ds_dtype dataset = float64 ->
  in_bounds (ds_bounds dataset) coordinate = true ->
  ds_index dataset (snd coordinate) (fst coordinate) = (row, col) ->
  ds_read dataset (row, row + Z.of_nat window_size)%Z
          (col, col + Z.of_nat window_size)%Z = Ok window ->
  (i < List.length window)%nat -> (j < List.length (nth i window []))%nat ->
  (a < List.length window)%nat -> (b < List.length (nth a window []))%nat ->
  nth b (nth a window []) (Num 0) = NaN ->
  (Z.of_nat i - Z.of_nat (window_size / 2) <= Z.of_nat a <
     Z.of_nat i - Z.of_nat (window_size / 2) + Z.of_nat window_size)%Z ->
  (Z.of_nat j - Z.of_nat (window_size / 2) <= Z.of_nat b <
     Z.of_nat j - Z.of_nat (window_size / 2) + Z.of_nat window_size)%Z ->
  exists out : list (list npval),
    lee window_size dataset coordinate = Ok (Some out) /\
    nth j (nth i out []) (IVal 0) = FVal S754_nan.
Proof.
  intros Hs Hdt Hin Hidx Hr Hi Hj Ha Hb Hnan HIa HJb.
  assert (Hg : generic_filter out_of_range (ds_dtype dataset) window
                 (lee_filter_single_pixel window_size) window_size =
               Ok (generic_filter_output out_of_range (ds_dtype dataset) window
                     (lee_filter_single_pixel window_size) window_size))
    by (apply generic_filter_ok; [rewrite Hdt; discriminate | exact Hs]).
  eexists. split.
  - unfold lee_filter. rewrite Hin, Hidx, Hr. cbn [bind]. rewrite Hg. reflexivity.
  - rewrite generic_filter_nth by assumption. rewrite Hdt. simpl np_cast. f_equal.
    apply lee_filter_single_pixel_nan_buffer.
    change S754_nan with (pix_to_f64 NaN). apply in_map.
    rewrite <- Hnan.
    replace (nth b (nth a window []) (Num 0)) with (cell window (Z.of_nat a) (Z.of_nat b)).
    + apply footprint_covers; assumption.
    + rewrite cell_in_range by assumption. apply nth_indep. exact Hb.
Qed.

End PublicFunctionErrors.

Lemma extract_values_outcomes_witness :
  InMemory.extract_values InMemory.small (3 # 2, 5 # 2) = Ok [Some (Num 3)].
Proof.
  destruct (proj2 (extract_values_outcomes InMemory.raster InMemory.ds_bounds
                     InMemory.ds_index InMemory.ds_read InMemory.small (3 # 2, 5 # 2))
              0%Z 2%Z ltac:(vm_compute; reflexivity) ltac:(vm_compute; reflexivity))
    as [Hv _].
  apply (Hv (Num 3) [] []). vm_compute. reflexivity.
Defined.

Lemma lee_filter_read_errors_witness :
  InMemory.lee 3 InMemory.square (1, 1) = Err (OtherError "WindowError").
Proof.
  apply (proj2 (lee_filter_read_errors InMemory.raster InMemory.ds_bounds InMemory.ds_index
                  InMemory.ds_read InMemory.ds_dtype InMemory.out_of_range 3 InMemory.square (1, 1) 2 1 (OtherError "WindowError")
                  ltac:(vm_compute; reflexivity) ltac:(vm_compute; reflexivity)
                  ltac:(vm_compute; reflexivity))).
  discriminate.
Defined.

Lemma lee_filter_filter_errors_witness :
  InMemory.lee 1 InMemory.cplx (1, 0) = Err (OtherError "TypeError") /\
  InMemory.lee 0 InMemory.square (3, 0) = Err (OtherError "RuntimeError").
Proof.
  split.
  - apply (proj1 (lee_filter_filter_errors InMemory.raster InMemory.ds_bounds
                    InMemory.ds_index InMemory.ds_read InMemory.ds_dtype InMemory.out_of_range
                    1 InMemory.cplx (1, 0) 0 0 [[Num 1]]
                    ltac:(vm_compute; reflexivity) ltac:(vm_compute; reflexivity)
                    ltac:(vm_compute; reflexivity))).
    reflexivity.
  - apply (proj2 (lee_filter_filter_errors InMemory.raster InMemory.ds_bounds
                    InMemory.ds_index InMemory.ds_read InMemory.ds_dtype InMemory.out_of_range
                    0 InMemory.square (3, 0) 0 0 []
                    ltac:(vm_compute; reflexivity) ltac:(vm_compute; reflexivity)
                    ltac:(vm_compute; reflexivity))).
    + vm_compute. discriminate.
    + reflexivity.
Defined.

(** The NaN at (0, 1) of a 2 x 2 float64 window spreads to pixel (1, 1). *)
Lemma lee_filter_nan_spreads_witness :
  exists out : list (list npval),
    InMemory.lee 2 InMemory.holey (2, 0) = Ok (Some out) /\
    nth 1 (nth 1 out []) (IVal 0) = FVal S754_nan.
Proof.
  apply (lee_filter_nan_spreads InMemory.raster InMemory.ds_bounds InMemory.ds_index
           InMemory.ds_read InMemory.ds_dtype InMemory.out_of_range
           2 InMemory.holey (2, 0) 0 0 [[Num 1; NaN]; [Num 3; Num 4]] 1 1 0 1);
    first [lia | vm_compute; reflexivity | simpl; lia].
Defined.
